(** * Service references and service factories of the backend plugin API

    A shallow embedding of
    [packages/backend-plugin-api/src/services/system/types.ts]:
    [createServiceRef] and [createServiceFactory], together with the
    constraints that the public overload signatures of
    [createServiceFactory] put on a declaration, and the type-level
    dependency projection [ServiceRefsToInstances]. *)

From stdpp Require Import base strings gmap.

Local Open Scope string_scope.

(** ** JavaScript values, completions, calls *)

(** The values that flow through this module without being inspected by
    it: caller options, resolved dependency maps, root contexts, service
    instances, thrown errors. *)
Inductive Value : Type :=
| VUndefined
| VString (s : string)
| VError (message : string)        (* new Error(message) *)
| VObject (addr : nat).            (* any other object, by identity *)

(** How an evaluation ends: with a value, or with a [throw]. *)
Inductive completion (A : Type) : Type :=
| Normal (a : A)
| Throw (e : Value).
Arguments Normal {A} a.
Arguments Throw {A} e.

(** Code supplied by the caller may read and write any state it likes;
    [World] is that state, threaded through every call. *)
Definition M (World A : Type) : Type := World -> completion A * World.

Definition ret {World A : Type} (a : A) : M World A :=
  fun w => (Normal a, w).

Definition throw {World A : Type} (e : Value) : M World A :=
  fun w => (Throw e, w).

Definition bind {World A B : Type} (c : M World A) (k : A -> M World B)
  : M World B :=
  fun w =>
    match c w with
    | (Normal a, w') => k a w'
    | (Throw e, w') => (Throw e, w')
    end.

Notation "'let*' x ':=' c 'in' k" := (bind c (fun x => k))
  (at level 10, x name, c at level 100, k at level 200).

(** A function value. It is called with a list of actual arguments; a
    parameter with no matching argument reads [undefined].

    A call of an [async] function, or of a function declared to return
    [T | Promise<T>], is modelled by what awaiting its result gives:
    [Normal v] for a returned [v] or a promise fulfilled with [v],
    [Throw e] for a [throw e] or a promise rejected with [e]. *)
Definition JsFun (World : Type) : Type := list Value -> M World Value.

Definition arg (n : nat) (args : list Value) : Value :=
  default VUndefined (args !! n).

(** ** Service references *)

Inductive Scope : Type := root | plugin.

Global Instance Scope_eq_dec : EqDecision Scope.
Proof. solve_decision. Defined.

Module ServiceRefOptions.
Record t : Type := mk {
  id : string;
  scope : option Scope;              (* scope?: TScope *)
  defaultFactory : option Value      (* defaultFactory?: a function, never
                                        called here, kept by reference *)
}.
End ServiceRefOptions.

Module ServiceRef.
Record t : Type := mk {
  id : string;
  scope : Scope;
  T : completion Value;              (* get T(): what reading [ref.T] does *)
  toString : string;                 (* toString(): its result *)
  type_tag : string;                 (* $$type *)
  __defaultFactory : option Value
}.
End ServiceRef.

(** [toString] and the message of the error thrown by [T] are given for an
    options object that is still as it was passed in. The source builds
    both when they are asked for, [toString] from [options.id] and the
    message from [this]; a caller that overwrites [options.id] after the
    call changes them, and not the token's [id]. *)
Definition createServiceRef (options : ServiceRefOptions.t) : ServiceRef.t :=
  let id := ServiceRefOptions.id options in
  let scope := default plugin (ServiceRefOptions.scope options) in
  let defaultFactory := ServiceRefOptions.defaultFactory options in
  let toString := "serviceRef{" +:+ ServiceRefOptions.id options +:+ "}" in
  {| ServiceRef.id := id;
     ServiceRef.scope := scope;
     ServiceRef.T := Throw (VError ("tried to read ServiceRef.T of " +:+ toString));
     ServiceRef.toString := toString;
     ServiceRef.type_tag := "@backstage/ServiceRef";
     ServiceRef.__defaultFactory := defaultFactory |}.

(** ** Factory declarations *)

Inductive Strategy : Type := always | lazy.

(** An optional property of an object literal: the key may be missing,
    present with the value [undefined], or present with a value. The [in]
    operator tells the first from the other two; optional chaining [?.]
    tells the last from the other two. *)
Inductive OptionalKey (A : Type) : Type :=
| Missing
| Undefined
| Defined (a : A).
Arguments Missing {A}.
Arguments Undefined {A}.
Arguments Defined {A} a.

Definition has_key {A : Type} (k : OptionalKey A) : bool :=
  match k with
  | Missing => false
  | Undefined | Defined _ => true
  end.

(** The configuration object as [createServiceFactory] sees it at run
    time. [RootServiceFactoryOptions] and [PluginServiceFactoryOptions]
    differ in their types only; the casts between them are erased, and the
    implementation reads the fields below from whatever object it gets. *)
Module ServiceFactoryOptions.
Record t {World : Type} : Type := mk {
  initialization : option Strategy;            (* initialization?: *)
  service : ServiceRef.t;
  deps : gmap string ServiceRef.t;
  createRootContext : OptionalKey (JsFun World);
  factory : JsFun World
}.
Arguments t : clear implicits.
End ServiceFactoryOptions.

Module InternalServiceFactory.
Record t {World : Type} : Type := mk {
  type_tag : string;                           (* $$type *)
  version : string;
  service : ServiceRef.t;
  initialization : option Strategy;
  createRootContext : option (JsFun World);    (* createRootContext?( *)
  deps : gmap string ServiceRef.t;
  factory : JsFun World
}.
Arguments t : clear implicits.
End InternalServiceFactory.

(** The function object that [createServiceFactory] returns: what a call
    does, and its own [$$type] property. *)
Module ServiceFactoryBuilder.
Record t {World : Type} : Type := mk {
  call : list Value -> M World (InternalServiceFactory.t World);
  type_tag : string
}.
Arguments t : clear implicits.
End ServiceFactoryBuilder.

(** The argument of [createServiceFactory]: a configuration object, or a
    function from caller options to one ([typeof options === 'function']). *)
Inductive Declaration (World : Type) : Type :=
| Fixed (c : ServiceFactoryOptions.t World)
| Parameterized (f : list Value -> M World (ServiceFactoryOptions.t World)).
Arguments Fixed {World} c.
Arguments Parameterized {World} f.

Section Factory.
Context {World : Type}.

Definition configCallback (options : Declaration World)
  : list Value -> M World (ServiceFactoryOptions.t World) :=
  match options with
  | Parameterized f => f
  | Fixed c => fun _ => ret c
  end.

Definition createServiceFactory (options : Declaration World)
  : M World (ServiceFactoryBuilder.t World) :=
  let factory := fun args : list Value =>
    let o := arg 0 args in
    let* anyConf := configCallback options [o] in
    if decide (ServiceRef.scope (ServiceFactoryOptions.service anyConf) = root)
    then
      let c := anyConf in
      ret {| InternalServiceFactory.type_tag := "@backstage/BackendFeature";
             InternalServiceFactory.version := "v1";
             InternalServiceFactory.service := ServiceFactoryOptions.service c;
             InternalServiceFactory.initialization :=
               ServiceFactoryOptions.initialization c;
             InternalServiceFactory.createRootContext := None;
             InternalServiceFactory.deps := ServiceFactoryOptions.deps c;
             InternalServiceFactory.factory :=
               fun args => ServiceFactoryOptions.factory c [arg 0 args] |}
    else
      let c := anyConf in
      ret {| InternalServiceFactory.type_tag := "@backstage/BackendFeature";
             InternalServiceFactory.version := "v1";
             InternalServiceFactory.service := ServiceFactoryOptions.service c;
             InternalServiceFactory.initialization :=
               ServiceFactoryOptions.initialization c;
             InternalServiceFactory.createRootContext :=
               if has_key (ServiceFactoryOptions.createRootContext c)
               then Some (fun args =>
                            match ServiceFactoryOptions.createRootContext c with
                            | Defined f => f [arg 0 args]
                            | Missing | Undefined => ret VUndefined
                            end)
               else None;
             InternalServiceFactory.deps := ServiceFactoryOptions.deps c;
             InternalServiceFactory.factory :=
               fun args =>
                 ServiceFactoryOptions.factory c [arg 0 args; arg 1 args] |}
  in
  ret {| ServiceFactoryBuilder.call := factory;
         ServiceFactoryBuilder.type_tag := "@backstage/BackendFeatureFactory" |}.

End Factory.

(** [createServiceFactory(options)(...args)]: build the factory function
    and invoke it at once. *)
Definition build {World : Type} (options : Declaration World)
  (args : list Value) : M World (InternalServiceFactory.t World) :=
  let* factory := createServiceFactory options in
  ServiceFactoryBuilder.call factory args.

(** Modelled from the spec: the resolution engine that reads a descriptor's
    initialization strategy is not part of this module. The strategy a
    descriptor stands for is the one it carries, and when it carries none,
    the default of its scope: [always] for root, [lazy] for plugin (the
    same default is documented on [RootServiceFactoryOptions.initialization]
    and [PluginServiceFactoryOptions.initialization]). *)
Definition initializationStrategy {World : Type}
  (d : InternalServiceFactory.t World) : Strategy :=
  match InternalServiceFactory.initialization d with
  | Some s => s
  | None =>
      match ServiceRef.scope (InternalServiceFactory.service d) with
      | root => always
      | plugin => lazy
      end
  end.

(** ** What the overload signatures admit

    The implementation signature of [createServiceFactory] is hidden
    behind four public overloads. A call compiles when one of them admits
    the static type of its argument. Of that type only the scope
    parameters of the service references matter here. *)

(** The [TScope] argument of a [ServiceRef<TService, TScope>] type. *)
Inductive ScopeType : Type :=
| TRoot                 (* 'root' *)
| TPlugin               (* 'plugin' *)
| TRootOrPlugin.        (* 'root' | 'plugin', the default *)

Global Instance ScopeType_eq_dec : EqDecision ScopeType.
Proof. solve_decision. Defined.

(** A run-time scope is a member of a scope type. *)
Definition inhabits (s : Scope) (t : ScopeType) : bool :=
  match s, t with
  | _, TRootOrPlugin => true
  | root, TRoot => true
  | plugin, TPlugin => true
  | _, _ => false
  end.

(** [ServiceRef<_, t>] is assignable to [ServiceRef<_, u>]: the [scope]
    field is read-only data of type [TScope], so [t] has to be a subtype
    of [u]. *)
Definition assignable (t u : ScopeType) : bool :=
  match t, u with
  | _, TRootOrPlugin => true
  | TRoot, TRoot => true
  | TPlugin, TPlugin => true
  | _, _ => false
  end.

Inductive Shape : Type :=
| OptionsObject                    (* options: ...ServiceFactoryOptions<...> *)
| OptionsFunction.                 (* options: (options?: TOpts) => ... *)

Global Instance Shape_eq_dec : EqDecision Shape.
Proof. solve_decision. Defined.

(** The static type of a declaration. *)
Module DeclarationType.
Record t : Type := mk {
  shape : Shape;
  service : ScopeType;
  deps : gmap string ScopeType
}.
End DeclarationType.

(** One overload: the shape of its parameter, the scope it asks of
    [service], and the bound [TDeps extends { [name in string]:
    ServiceRef<unknown, bound> }]. *)
Module Overload.
Record t : Type := mk {
  shape : Shape;
  service : ScopeType;
  deps_bound : ScopeType
}.
End Overload.

Definition overloads : list Overload.t :=
  [ Overload.mk OptionsObject TRoot TRoot;
    Overload.mk OptionsFunction TRoot TRoot;
    Overload.mk OptionsObject TPlugin TRootOrPlugin;
    Overload.mk OptionsFunction TPlugin TRootOrPlugin ].

Definition admits (o : Overload.t) (ty : DeclarationType.t) : bool :=
  bool_decide (Overload.shape o = DeclarationType.shape ty)
  && assignable (DeclarationType.service ty) (Overload.service o)
  && bool_decide
       (map_Forall (fun _ t => assignable t (Overload.deps_bound o) = true)
                   (DeclarationType.deps ty)).

Definition typechecks (ty : DeclarationType.t) : bool :=
  existsb (fun o => admits o ty) overloads.

(** The static type describes the whole configuration object truthfully:
    every key that [deps] has at run time is listed in the type, and every
    token's run-time scope is a member of its declared scope type. The type
    checker does not establish this by itself, see [has_open_type]. *)
Definition dep_has_type (ty : DeclarationType.t) (name : string)
  (ref : ServiceRef.t) : bool :=
  match DeclarationType.deps ty !! name with
  | Some t => inhabits (ServiceRef.scope ref) t
  | None => false
  end.

Definition has_type {World : Type} (c : ServiceFactoryOptions.t World)
  (ty : DeclarationType.t) : bool :=
  inhabits (ServiceRef.scope (ServiceFactoryOptions.service c))
           (DeclarationType.service ty)
  && bool_decide
       (map_Forall (fun name ref => dep_has_type ty name ref = true)
                   (ServiceFactoryOptions.deps c)).

(** What assignability to an object type gives. Object types are open: the
    keys that the type lists are there with tokens of the listed scope
    types, and [deps] may have further keys that the type says nothing
    about. *)
Definition has_open_type {World : Type} (c : ServiceFactoryOptions.t World)
  (ty : DeclarationType.t) : bool :=
  inhabits (ServiceRef.scope (ServiceFactoryOptions.service c))
           (DeclarationType.service ty)
  && bool_decide
       (map_Forall
          (fun name t =>
             match ServiceFactoryOptions.deps c !! name with
             | Some ref => inhabits (ServiceRef.scope ref) t
             | None => false
             end = true)
          (DeclarationType.deps ty)).

Definition declaration_has_type {World : Type} (options : Declaration World)
  (ty : DeclarationType.t) : Prop :=
  match options with
  | Fixed c =>
      DeclarationType.shape ty = OptionsObject /\ has_type c ty = true
  | Parameterized f =>
      DeclarationType.shape ty = OptionsFunction /\
      forall args w c w', f args w = (Normal c, w') -> has_type c ty = true
  end.

(** ** Sample declarations *)

Definition dbRef : ServiceRef.t :=
  createServiceRef (ServiceRefOptions.mk "db" (Some root) None).

Definition loggerRef : ServiceRef.t :=
  createServiceRef (ServiceRefOptions.mk "logger" None None).

Definition pool : Value := VObject 1.
Definition sharedStream : Value := VObject 2.

(** [{ service: dbRef, deps: {}, factory: () => new Pool() }] *)
Definition poolOptions {World : Type} : ServiceFactoryOptions.t World :=
  {| ServiceFactoryOptions.initialization := None;
     ServiceFactoryOptions.service := dbRef;
     ServiceFactoryOptions.deps := ∅;
     ServiceFactoryOptions.createRootContext := Missing;
     ServiceFactoryOptions.factory := fun _ => ret pool |}.

(** [{ service: loggerRef, deps: { db: dbRef }, createRootContext: k,
       factory: (deps, ctx) => ctx }] *)
Definition loggerOptions {World : Type} (k : OptionalKey (JsFun World))
  : ServiceFactoryOptions.t World :=
  {| ServiceFactoryOptions.initialization := Some always;
     ServiceFactoryOptions.service := loggerRef;
     ServiceFactoryOptions.deps := {[ "db" := dbRef ]};
     ServiceFactoryOptions.createRootContext := k;
     ServiceFactoryOptions.factory := fun args => ret (arg 1 args) |}.

(** [{ service: dbRef, deps: { logger: loggerRef }, factory: ... }]: a
    root scoped service that asks for a plugin scoped one. *)
Definition poolWithLoggerOptions {World : Type} : ServiceFactoryOptions.t World :=
  {| ServiceFactoryOptions.initialization := None;
     ServiceFactoryOptions.service := dbRef;
     ServiceFactoryOptions.deps := {[ "logger" := loggerRef ]};
     ServiceFactoryOptions.createRootContext := Missing;
     ServiceFactoryOptions.factory := fun _ => ret pool |}.

Definition poolWithLoggerType : DeclarationType.t :=
  {| DeclarationType.shape := OptionsObject;
     DeclarationType.service := TRoot;
     DeclarationType.deps := {[ "logger" := TPlugin ]} |}.

(** [{ service: dbRef, deps: {}, createRootContext: () => sharedStream,
       factory: (deps, ctx) => ctx }]: a root scoped declaration written as
    if it were plugin scoped. *)
Definition echoOptions {World : Type} : ServiceFactoryOptions.t World :=
  {| ServiceFactoryOptions.initialization := Some lazy;
     ServiceFactoryOptions.service := dbRef;
     ServiceFactoryOptions.deps := ∅;
     ServiceFactoryOptions.createRootContext :=
       Defined (fun _ => ret sharedStream);
     ServiceFactoryOptions.factory := fun args => ret (arg 1 args) |}.

(** A parameterized declaration that counts its own evaluations in the
    world. *)
Definition countedOptions : list Value -> M nat (ServiceFactoryOptions.t nat) :=
  fun _ n => (Normal poolOptions, S n).

(** ** The dependency projection [ServiceRefsToInstances]

    A compile-time map from the type of a dependency map to the type of
    the resolved dependencies handed to [factory] and [createRootContext].
    A reference type is its contract type, kept here by name, and its
    scope type. *)
Module ServiceRefType.
Record t : Type := mk {
  T : string;
  scope : ScopeType
}.
End ServiceRefType.

(** [{ [key in keyof T as T[key]['scope'] extends TScope ? key : never]:
       T[key]['T'] }]. The tested type [T[key]['scope']] is not a bare type
    parameter, so the conditional does not distribute over a union: a
    reference typed ['root' | 'plugin'] passes only if the whole union is
    assignable to [TScope]. *)
Definition ServiceRefsToInstances (T : gmap string ServiceRefType.t)
  (TScope : ScopeType) : gmap string string :=
  omap (fun r => if assignable (ServiceRefType.scope r) TScope
                 then Some (ServiceRefType.T r)
                 else None) T.

(** [{ service: cacheRef, deps: { db: dbRef }, factory: deps => deps }]: a
    root scoped service on a root scoped one. *)
Definition cacheRef : ServiceRef.t :=
  createServiceRef (ServiceRefOptions.mk "cache" (Some root) None).


(** [cacheOptions] with a further dependency on [loggerRef], held in a
    variable of the type of [cacheOptions]: [{ db: dbRef, logger: loggerRef }]
    is assignable to [{ db: ServiceRef<Pool, 'root'> }]. *)
Definition cacheWithLoggerOptions {World : Type} : ServiceFactoryOptions.t World :=
  {| ServiceFactoryOptions.initialization := None;
     ServiceFactoryOptions.service := cacheRef;
     ServiceFactoryOptions.deps := {[ "db" := dbRef; "logger" := loggerRef ]};
     ServiceFactoryOptions.createRootContext := Missing;
     ServiceFactoryOptions.factory := fun args => ret (arg 0 args) |}.

Definition cacheType : DeclarationType.t :=
  {| DeclarationType.shape := OptionsObject;
     DeclarationType.service := TRoot;
     DeclarationType.deps := {[ "db" := TRoot ]} |}.

(** The type of [{ db: dbRef, logger: loggerRef, any: ref }] with [ref] of
    type [ServiceRef<Clock>]. *)
Definition sampleDepsType : gmap string ServiceRefType.t :=
  {[ "db" := ServiceRefType.mk "Pool" TRoot;
     "logger" := ServiceRefType.mk "Logger" TPlugin;
     "any" := ServiceRefType.mk "Clock" TRootOrPlugin ]}.

(** * Properties of [createServiceRef] *)

Lemma createServiceRef_id options :
  ServiceRef.id (createServiceRef options) = ServiceRefOptions.id options.
Proof. reflexivity. Qed.

Lemma createServiceRef_scope options :
  ServiceRef.scope (createServiceRef options)
  = default plugin (ServiceRefOptions.scope options).
Proof. reflexivity. Qed.

(** C7. For an options object with a non-empty id, the token returned by
    [createServiceRef] has the given id and the given scope; when the scope
    is left out, the token's scope is [plugin]. *)
Theorem createServiceRef_id_scope (options : ServiceRefOptions.t) :
  ServiceRefOptions.id options <> "" ->
  ServiceRef.id (createServiceRef options) = ServiceRefOptions.id options
  /\ (forall s, ServiceRefOptions.scope options = Some s ->
                ServiceRef.scope (createServiceRef options) = s)
  /\ (ServiceRefOptions.scope options = None ->
      ServiceRef.scope (createServiceRef options) = plugin).
Proof.
  intros _. split; [apply createServiceRef_id|].
  rewrite createServiceRef_scope.
  split; [intros s Hs | intros Hs]; rewrite Hs; reflexivity.
Qed.

Lemma createServiceRef_id_scope_witness :
  "db" <> ""
  /\ ServiceRef.id dbRef = "db"
  /\ ServiceRef.scope dbRef = root
  /\ ServiceRef.scope loggerRef = plugin.
Proof.
  split; [discriminate|].
  split; [|split].
  - apply (createServiceRef_id_scope
             (ServiceRefOptions.mk "db" (Some root) None)).
    discriminate.
  - apply (createServiceRef_id_scope
             (ServiceRefOptions.mk "db" (Some root) None));
      [discriminate | reflexivity].
  - apply (createServiceRef_id_scope
             (ServiceRefOptions.mk "logger" None None));
      [discriminate | reflexivity].
Defined.

(** C8. Reading the phantom field [T] of a token made by
    [createServiceRef] throws an error; it never yields a value. *)
Theorem createServiceRef_T_throws (options : ServiceRefOptions.t) :
  ServiceRef.T (createServiceRef options)
  = Throw (VError ("tried to read ServiceRef.T of "
                   +:+ ServiceRef.toString (createServiceRef options)))
  /\ forall v, ServiceRef.T (createServiceRef options) <> Normal v.
Proof.
  split; [reflexivity | intros v; discriminate].
Qed.

(** C9 as stated fails: the string form of the token with id [db] is not
    [token{db}]. *)
Lemma createServiceRef_toString_not_token :
  ServiceRef.toString (createServiceRef (ServiceRefOptions.mk "db" (Some root) None))
  <> "token{" +:+ "db" +:+ "}".
Proof. discriminate. Qed.

(** C9, amended. The string form of a token made by [createServiceRef]
    with id [i] is [serviceRef{] followed by [i] followed by [}]. *)
Theorem createServiceRef_toString (options : ServiceRefOptions.t) :
  ServiceRef.toString (createServiceRef options)
  = "serviceRef{" +:+ ServiceRefOptions.id options +:+ "}".
Proof. reflexivity. Qed.

(** * Properties of [createServiceFactory] *)

Section FactoryProperties.
Context {World : Type}.
Implicit Types (options : Declaration World) (args : list Value).
Implicit Types (w : World) (c : ServiceFactoryOptions.t World).
Implicit Types (desc : InternalServiceFactory.t World).

(** Building never touches the world and never throws. *)
Lemma createServiceFactory_pure options w :
  exists factory, createServiceFactory options w = (Normal factory, w).
Proof. eexists. reflexivity. Qed.

(** Invoking the factory function starts by resolving the configuration
    from the first argument; a [throw] there is the outcome of the call. *)
Lemma build_throw options args w e w' :
  configCallback options [arg 0 args] w = (Throw e, w') ->
  build options args w = (Throw e, w').
Proof.
  intros H. unfold build, createServiceFactory, bind, ret. simpl.
  rewrite H. reflexivity.
Qed.

Lemma build_returns options args w c w' :
  configCallback options [arg 0 args] w = (Normal c, w') ->
  exists desc, build options args w = (Normal desc, w').
Proof.
  intros H. unfold build, createServiceFactory, bind, ret. simpl.
  rewrite H. case_decide; eexists; reflexivity.
Qed.

Lemma build_resolves options args w desc w' :
  build options args w = (Normal desc, w') ->
  exists c, configCallback options [arg 0 args] w = (Normal c, w').
Proof.
  unfold build, createServiceFactory, bind, ret. simpl.
  destruct (configCallback options [arg 0 args] w) as [[c|e] w1].
  - case_decide; intros [= _ <-]; eexists; reflexivity.
  - discriminate.
Qed.

End FactoryProperties.

(** Unfold one invocation of the factory function, given the resolved
    configuration [H], and split on the scope test. *)
Ltac run_build H :=
  unfold build, createServiceFactory, bind, ret; simpl;
  rewrite H; case_decide; try congruence.

(** C1. Whatever the shape of the declaration (object or function, root
    or plugin service), the descriptor that the factory function returns
    has the [service], [deps] and [initialization] of the resolved
    configuration object. *)
Theorem build_preserves_configuration {World : Type}
  (options : Declaration World) (args : list Value) (w w' : World)
  (c : ServiceFactoryOptions.t World) :
  configCallback options [arg 0 args] w = (Normal c, w') ->
  exists desc,
    build options args w = (Normal desc, w')
    /\ InternalServiceFactory.service desc = ServiceFactoryOptions.service c
    /\ InternalServiceFactory.deps desc = ServiceFactoryOptions.deps c
    /\ InternalServiceFactory.initialization desc
       = ServiceFactoryOptions.initialization c.
Proof.
  intros H. run_build H; eexists; (split; [reflexivity|]); simpl; auto.
Qed.

Lemma build_preserves_configuration_witness :
  exists desc,
    build (Parameterized (fun _ => ret (loggerOptions Undefined))) [VString "opts"] tt
    = (Normal desc, tt)
    /\ InternalServiceFactory.service desc = loggerRef
    /\ InternalServiceFactory.deps desc = {[ "db" := dbRef ]}
    /\ InternalServiceFactory.initialization desc = Some always.
Proof.
  apply (build_preserves_configuration
           (Parameterized (fun _ => ret (loggerOptions Undefined)))
           [VString "opts"] tt tt (loggerOptions Undefined)).
  reflexivity.
Defined.

(** The four shapes, one by one. *)
Example build_root_object :
  exists desc, build (Fixed poolOptions) [] tt = (Normal desc, tt)
    /\ InternalServiceFactory.service desc = dbRef
    /\ InternalServiceFactory.deps desc = ∅
    /\ InternalServiceFactory.initialization desc = None.
Proof. eexists. repeat split. Qed.

Example build_root_function :
  exists desc, build (Parameterized countedOptions) [] 0 = (Normal desc, 1)
    /\ InternalServiceFactory.service desc = dbRef
    /\ InternalServiceFactory.deps desc = ∅
    /\ InternalServiceFactory.initialization desc = None.
Proof. eexists. repeat split. Qed.

Example build_plugin_object :
  exists desc, build (Fixed (loggerOptions Missing)) [] tt = (Normal desc, tt)
    /\ InternalServiceFactory.service desc = loggerRef
    /\ InternalServiceFactory.deps desc = {[ "db" := dbRef ]}
    /\ InternalServiceFactory.initialization desc = Some always.
Proof. eexists. repeat split. Qed.

Example build_plugin_function :
  exists desc,
    build (Parameterized (fun _ => ret (loggerOptions Missing))) [pool] tt
    = (Normal desc, tt)
    /\ InternalServiceFactory.service desc = loggerRef
    /\ InternalServiceFactory.deps desc = {[ "db" := dbRef ]}
    /\ InternalServiceFactory.initialization desc = Some always.
Proof. eexists. repeat split. Qed.

(** X3. A plugin scoped descriptor hands both of its arguments, the
    dependency map and the context, to the declared factory. *)
Lemma build_plugin_factory {World : Type}
  (options : Declaration World) (args : list Value) (w w' : World)
  (c : ServiceFactoryOptions.t World) :
  configCallback options [arg 0 args] w = (Normal c, w') ->
  ServiceRef.scope (ServiceFactoryOptions.service c) = plugin ->
  exists desc,
    build options args w = (Normal desc, w')
    /\ forall a w1,
         InternalServiceFactory.factory desc a w1
         = ServiceFactoryOptions.factory c [arg 0 a; arg 1 a] w1.
Proof.
  intros H Hscope. run_build H.
  eexists. split; [reflexivity|]. simpl. auto.
Qed.

(** C2 as stated fails: a plugin scoped declaration that carries the key
    [createRootContext] with the value [undefined] provides no root-context
    constructor, yet its descriptor has one, which resolves to
    [undefined]. *)
Lemma build_plugin_undefined_createRootContext :
  let c : ServiceFactoryOptions.t unit := loggerOptions Undefined in
  ServiceRef.scope (ServiceFactoryOptions.service c) = plugin
  /\ exists desc,
       build (Fixed c) [] tt = (Normal desc, tt)
       /\ ~ (is_Some (InternalServiceFactory.createRootContext desc)
             <-> exists f, ServiceFactoryOptions.createRootContext c = Defined f)
       /\ exists g, InternalServiceFactory.createRootContext desc = Some g
                    /\ forall a, g a tt = (Normal VUndefined, tt).
Proof.
  simpl. split; [reflexivity|].
  eexists. split; [reflexivity|]. simpl. split.
  - intros [Hfun _]. destruct Hfun as [f Hf]; [eexists; reflexivity|].
    discriminate Hf.
  - eexists. split; [reflexivity|]. reflexivity.
Qed.

(** C2, amended. For a plugin scoped declaration the descriptor has a
    [createRootContext] function exactly when the configuration object has
    the key [createRootContext]. With the key missing the descriptor has
    none. With the key holding a function, the descriptor's function calls
    it with its first argument. With the key holding [undefined], the
    descriptor's function resolves to [undefined] and does nothing else. *)
Theorem build_plugin_createRootContext {World : Type}
  (options : Declaration World) (args : list Value) (w w' : World)
  (c : ServiceFactoryOptions.t World) :
  configCallback options [arg 0 args] w = (Normal c, w') ->
  ServiceRef.scope (ServiceFactoryOptions.service c) = plugin ->
  exists desc,
    build options args w = (Normal desc, w')
    /\ (is_Some (InternalServiceFactory.createRootContext desc)
        <-> has_key (ServiceFactoryOptions.createRootContext c) = true)
    /\ (ServiceFactoryOptions.createRootContext c = Missing ->
        InternalServiceFactory.createRootContext desc = None)
    /\ (forall f, ServiceFactoryOptions.createRootContext c = Defined f ->
        exists g, InternalServiceFactory.createRootContext desc = Some g
                  /\ forall a w1, g a w1 = f [arg 0 a] w1)
    /\ (ServiceFactoryOptions.createRootContext c = Undefined ->
        exists g, InternalServiceFactory.createRootContext desc = Some g
                  /\ forall a w1, g a w1 = (Normal VUndefined, w1)).
Proof.
  intros H Hscope. run_build H.
  eexists. split; [reflexivity|]. simpl.
  destruct (ServiceFactoryOptions.createRootContext c) as [| |f0]; simpl.
  - repeat split; try discriminate.
    + intros [g Hg]. discriminate Hg.
  - repeat split; try discriminate; eauto.
  - repeat split; try discriminate; eauto.
    intros f [= <-]. eauto.
Qed.

Lemma build_plugin_createRootContext_witness :
  exists desc,
    build (Fixed (loggerOptions (Defined (fun _ => ret sharedStream)))) [] tt
    = (Normal desc, tt)
    /\ exists g, InternalServiceFactory.createRootContext desc = Some g
                 /\ g [] tt = (Normal sharedStream, tt).
Proof.
  destruct (build_plugin_createRootContext
              (Fixed (loggerOptions (Defined (fun _ => ret sharedStream))))
              [] tt tt
              (loggerOptions (Defined (fun _ => ret sharedStream)))
              eq_refl eq_refl)
    as (desc & Hb & _ & _ & Hf & _).
  exists desc. split; [exact Hb|].
  destruct (Hf _ eq_refl) as (g & Hg & Hcall).
  exists g. split; [exact Hg|]. rewrite Hcall. reflexivity.
Defined.

(** C3. For a declaration whose service token has scope [root], the
    descriptor has no [createRootContext], and its [factory] calls the
    declared factory with one argument, the dependency map it was given;
    a context argument is not passed on. *)
Theorem build_root_descriptor {World : Type}
  (options : Declaration World) (args : list Value) (w w' : World)
  (c : ServiceFactoryOptions.t World) :
  configCallback options [arg 0 args] w = (Normal c, w') ->
  ServiceRef.scope (ServiceFactoryOptions.service c) = root ->
  exists desc,
    build options args w = (Normal desc, w')
    /\ InternalServiceFactory.createRootContext desc = None
    /\ forall a w1,
         InternalServiceFactory.factory desc a w1
         = ServiceFactoryOptions.factory c [arg 0 a] w1.
Proof.
  intros H Hscope. run_build H.
  eexists. split; [reflexivity|]. simpl. auto.
Qed.

Lemma build_root_descriptor_witness :
  exists desc,
    build (Fixed echoOptions) [] tt = (Normal desc, tt)
    /\ InternalServiceFactory.createRootContext desc = None
    /\ InternalServiceFactory.factory desc [VObject 7; sharedStream] tt
       = (Normal VUndefined, tt).
Proof.
  destruct (build_root_descriptor (Fixed echoOptions) [] tt tt echoOptions
              eq_refl eq_refl)
    as (desc & Hb & Hctx & Hcall).
  exists desc. split; [exact Hb|]. split; [exact Hctx|].
  rewrite Hcall. reflexivity.
Defined.

(** C5. A root scoped declaration that names no initialization strategy,
    built and invoked with no options, gives a descriptor whose service
    has scope [root], which carries no strategy of its own and so stands
    for the root default [always], and which has no [createRootContext]. *)
Theorem build_root_default {World : Type}
  (options : Declaration World) (w w' : World)
  (c : ServiceFactoryOptions.t World) :
  configCallback options [VUndefined] w = (Normal c, w') ->
  ServiceRef.scope (ServiceFactoryOptions.service c) = root ->
  ServiceFactoryOptions.initialization c = None ->
  exists desc,
    build options [] w = (Normal desc, w')
    /\ ServiceRef.scope (InternalServiceFactory.service desc) = root
    /\ InternalServiceFactory.initialization desc = None
    /\ initializationStrategy desc = always
    /\ InternalServiceFactory.createRootContext desc = None.
Proof.
  intros H Hscope Hinit.
  change [VUndefined] with [arg 0 []] in H. run_build H.
  eexists. split; [reflexivity|].
  unfold initializationStrategy. simpl. rewrite Hscope, Hinit. auto.
Qed.

Lemma build_root_default_witness :
  exists desc,
    build (Fixed poolOptions) [] tt = (Normal desc, tt)
    /\ ServiceRef.scope (InternalServiceFactory.service desc) = root
    /\ InternalServiceFactory.initialization desc = None
    /\ initializationStrategy desc = always
    /\ InternalServiceFactory.createRootContext desc = None.
Proof.
  apply (build_root_default (Fixed poolOptions) tt tt poolOptions);
    reflexivity.
Defined.

(** C6. [createServiceFactory] does not evaluate a parameterized
    declaration: it returns the factory function and leaves the world as it
    was, whatever the declaration would do to it. Invoking the factory
    function evaluates the declaration once, on the caller's options. A
    fixed declaration goes the same way as the function that ignores its
    argument and returns it. *)
Theorem createServiceFactory_defers {World : Type}
  (f : list Value -> M World (ServiceFactoryOptions.t World)) (w : World) :
  (exists factory,
     createServiceFactory (Parameterized f) w = (Normal factory, w)
     /\ forall args w1,
          match f [arg 0 args] w1,
                ServiceFactoryBuilder.call factory args w1 with
          | (Normal _, w2), (Normal _, w2') => w2' = w2
          | (Throw e, w2), (Throw e', w2') => e' = e /\ w2' = w2
          | _, _ => False
          end)
  /\ forall c : ServiceFactoryOptions.t World,
       createServiceFactory (Fixed c)
       = createServiceFactory (Parameterized (fun _ => ret c)).
Proof.
  split; [|reflexivity].
  eexists. split; [reflexivity|]. intros args w1. simpl.
  unfold bind, ret.
  destruct (f [arg 0 args] w1) as [[c|e] w2]; [case_decide|]; auto.
Qed.

(** The evaluation counter of [countedOptions] is untouched by building
    and goes up by one with each invocation. *)
Example countedOptions_deferred :
  exists factory,
    createServiceFactory (Parameterized countedOptions) 0 = (Normal factory, 0)
    /\ snd (ServiceFactoryBuilder.call factory [] 0) = 1
    /\ snd (ServiceFactoryBuilder.call factory [VString "opts"] 1) = 2.
Proof. eexists. repeat split. Qed.

(** C10. The factory function returned by [createServiceFactory] carries
    the tag [@backstage/BackendFeatureFactory]; every descriptor it
    returns, for either scope, carries the tag [@backstage/BackendFeature]
    and the version [v1], so the two are told apart by their tags. *)
Theorem createServiceFactory_tags {World : Type}
  (options : Declaration World) (w : World) :
  exists factory,
    createServiceFactory options w = (Normal factory, w)
    /\ ServiceFactoryBuilder.type_tag factory = "@backstage/BackendFeatureFactory"
    /\ forall args w1 desc w2,
         ServiceFactoryBuilder.call factory args w1 = (Normal desc, w2) ->
         InternalServiceFactory.type_tag desc = "@backstage/BackendFeature"
         /\ InternalServiceFactory.version desc = "v1"
         /\ InternalServiceFactory.type_tag desc
            <> ServiceFactoryBuilder.type_tag factory.
Proof.
  eexists. split; [reflexivity|]. split; [reflexivity|].
  intros args w1 desc w2. simpl. unfold bind, ret.
  destruct (configCallback options [arg 0 args] w1) as [[c|e] w3];
    [|discriminate].
  case_decide; intros [= <- _]; simpl; repeat split; discriminate.
Qed.

Lemma createServiceFactory_tags_witness :
  exists factory desc,
    createServiceFactory (Fixed (loggerOptions Missing)) tt = (Normal factory, tt)
    /\ ServiceFactoryBuilder.call factory [] tt = (Normal desc, tt)
    /\ ServiceFactoryBuilder.type_tag factory = "@backstage/BackendFeatureFactory"
    /\ InternalServiceFactory.type_tag desc = "@backstage/BackendFeature"
    /\ InternalServiceFactory.version desc = "v1".
Proof.
  destruct (createServiceFactory_tags (Fixed (loggerOptions Missing)) tt)
    as (factory & Hf & Htag & Hdesc).
  injection Hf as <-.
  eexists. eexists. split; [reflexivity|]. split; [reflexivity|].
  split; [exact Htag|].
  destruct (Hdesc [] tt _ tt eq_refl) as (H1 & H2 & _).
  split; [exact H1 | exact H2].
Defined.

(** * The scope rule of the overload signatures *)

Lemma has_type_service {World : Type} (c : ServiceFactoryOptions.t World) ty :
  has_type c ty = true ->
  inhabits (ServiceRef.scope (ServiceFactoryOptions.service c))
           (DeclarationType.service ty) = true.
Proof. unfold has_type. intros H. apply andb_prop in H. tauto. Qed.

Lemma has_type_dep {World : Type} (c : ServiceFactoryOptions.t World) ty
  (name : string) (ref : ServiceRef.t) :
  has_type c ty = true ->
  ServiceFactoryOptions.deps c !! name = Some ref ->
  exists t, DeclarationType.deps ty !! name = Some t
            /\ inhabits (ServiceRef.scope ref) t = true.
Proof.
  unfold has_type. intros H Hname. apply andb_prop in H as [_ H].
  apply bool_decide_eq_true in H.
  pose proof (map_Forall_lookup_1 _ _ _ _ H Hname) as Hdep.
  unfold dep_has_type in Hdep.
  destruct (DeclarationType.deps ty !! name) as [t|]; [eauto | discriminate].
Qed.

Lemma configCallback_has_type {World : Type} (options : Declaration World)
  ty args w c w' :
  declaration_has_type options ty ->
  configCallback options args w = (Normal c, w') ->
  has_type c ty = true.
Proof.
  destruct options as [c0|f]; simpl; intros [_ Hty] H.
  - injection H as <- _. exact Hty.
  - eauto.
Qed.

(** An overload that bounds the dependencies by ['root'] admits no
    declaration with a dependency that may be plugin scoped. *)
Lemma admits_root_bound o ty (name : string) t :
  Overload.deps_bound o = TRoot ->
  DeclarationType.deps ty !! name = Some t ->
  inhabits plugin t = true ->
  admits o ty = false.
Proof.
  intros Hbound Hname Ht. unfold admits. rewrite Hbound.
  apply andb_false_intro2, bool_decide_eq_false. intros Hall.
  pose proof (map_Forall_lookup_1 _ _ _ _ Hall Hname) as Hassign.
  destruct t; simpl in *; discriminate.
Qed.

(** An overload that asks for a ['plugin'] service admits no declaration
    whose service may be root scoped. *)
Lemma admits_plugin_service o ty :
  Overload.service o = TPlugin ->
  inhabits root (DeclarationType.service ty) = true ->
  admits o ty = false.
Proof.
  intros Hservice Hty. unfold admits. rewrite Hservice.
  apply andb_false_intro1, andb_false_intro2.
  destruct (DeclarationType.service ty); simpl in *; congruence.
Qed.

(** C4 as stated fails: a root scoped declaration with a plugin scoped
    token among its dependencies, passed under a static type that lists
    only its root scoped dependency, is admitted by an overload, and the
    factory function returns a descriptor for it that carries the plugin
    scoped token. Nothing rejects it, at compile time or at run time. *)
Lemma root_with_plugin_dep_accepted :
  let c : ServiceFactoryOptions.t unit := cacheWithLoggerOptions in
  ServiceRef.scope (ServiceFactoryOptions.service c) = root
  /\ ServiceFactoryOptions.deps c !! "logger" = Some loggerRef
  /\ ServiceRef.scope loggerRef = plugin
  /\ has_open_type c cacheType = true
  /\ typechecks cacheType = true
  /\ exists desc,
       build (Fixed c) [] tt = (Normal desc, tt)
       /\ InternalServiceFactory.deps desc !! "logger" = Some loggerRef.
Proof.
  simpl. repeat split; try (vm_compute; reflexivity).
  eexists. split; [reflexivity|]. vm_compute. reflexivity.
Qed.

(** C4, amended. A declaration that resolves to a root scoped configuration
    with a plugin scoped token among its dependencies is rejected
    statically, provided its static type describes it in full: when the
    type lists every run-time key of [deps], and gives the service and
    every dependency a scope type that is true of the token, no overload
    of [createServiceFactory] admits it. *)
Theorem root_with_plugin_dep_rejected {World : Type}
  (options : Declaration World) (ty : DeclarationType.t)
  (args : list Value) (w w' : World) (c : ServiceFactoryOptions.t World)
  (name : string) (ref : ServiceRef.t) :
  declaration_has_type options ty ->
  configCallback options args w = (Normal c, w') ->
  ServiceRef.scope (ServiceFactoryOptions.service c) = root ->
  ServiceFactoryOptions.deps c !! name = Some ref ->
  ServiceRef.scope ref = plugin ->
  typechecks ty = false.
Proof.
  intros Hdecl Hconf Hroot Hname Hplugin.
  pose proof (configCallback_has_type _ _ _ _ _ _ Hdecl Hconf) as Hty.
  pose proof (has_type_service _ _ Hty) as Hservice.
  destruct (has_type_dep _ _ _ _ Hty Hname) as (t & Hdep & Ht).
  rewrite Hroot in Hservice. rewrite Hplugin in Ht.
  unfold typechecks, overloads. simpl.
  rewrite !(admits_root_bound _ ty name t) by (reflexivity || assumption).
  rewrite !(admits_plugin_service _ ty) by (reflexivity || assumption).
  reflexivity.
Qed.

Lemma root_with_plugin_dep_rejected_witness :
  typechecks poolWithLoggerType = false.
Proof.
  apply (root_with_plugin_dep_rejected
           (World := unit) (Fixed poolWithLoggerOptions) poolWithLoggerType
           [] tt tt poolWithLoggerOptions "logger" loggerRef).
  - split; [reflexivity | vm_compute; reflexivity].
  - reflexivity.
  - reflexivity.
  - vm_compute. reflexivity.
  - reflexivity.
Defined.

(** The scope rule lives in the overload signatures only. The
    implementation does not look at the scopes of the dependencies: called
    past the type checker, it returns a descriptor for the same
    declaration. *)
Example build_has_no_scope_check :
  exists desc,
    build (Fixed poolWithLoggerOptions) [] tt = (Normal desc, tt)
    /\ InternalServiceFactory.deps desc = {[ "logger" := loggerRef ]}.
Proof. eexists. split; reflexivity. Qed.

(** The overloads do admit well-scoped declarations. *)
Example typechecks_root_on_root :
  typechecks (DeclarationType.mk OptionsObject TRoot {[ "db" := TRoot ]}) = true.
Proof. vm_compute. reflexivity. Qed.

Example typechecks_plugin_on_both :
  typechecks (DeclarationType.mk OptionsFunction TPlugin
                {[ "db" := TRoot; "logger" := TPlugin ]}) = true.
Proof. vm_compute. reflexivity. Qed.

(** * Further properties of [createServiceFactory] *)

(** What a descriptor returned by an invocation was made from. *)
Lemma build_inv {World : Type} (options : Declaration World)
  (args : list Value) (w w' : World) (desc : InternalServiceFactory.t World) :
  build options args w = (Normal desc, w') ->
  exists c,
    configCallback options [arg 0 args] w = (Normal c, w')
    /\ InternalServiceFactory.service desc = ServiceFactoryOptions.service c
    /\ InternalServiceFactory.deps desc = ServiceFactoryOptions.deps c
    /\ (ServiceRef.scope (ServiceFactoryOptions.service c) = root ->
        InternalServiceFactory.createRootContext desc = None).
Proof.
  unfold build, createServiceFactory, bind, ret. simpl.
  destruct (configCallback options [arg 0 args] w) as [[c|e] w1];
    [|discriminate].
  case_decide; intros [= <- <-]; exists c; simpl; repeat split; congruence.
Qed.

(** X1. Normalization adds no failure of its own: an invocation of the factory
    function throws exactly when evaluating the declaration throws, with
    the same value and the same state, and returns a descriptor exactly
    when the declaration returns a configuration. *)
Theorem build_outcome {World : Type} (options : Declaration World)
  (args : list Value) (w : World) :
  (forall e w',
     build options args w = (Throw e, w')
     <-> configCallback options [arg 0 args] w = (Throw e, w'))
  /\ (forall w',
        (exists desc, build options args w = (Normal desc, w'))
        <-> exists c, configCallback options [arg 0 args] w = (Normal c, w')).
Proof.
  split.
  - intros e w'. split; [|apply build_throw].
    unfold build, createServiceFactory, bind, ret. simpl.
    destruct (configCallback options [arg 0 args] w) as [[c|e0] w1].
    + case_decide; discriminate.
    + intros [= <- <-]. reflexivity.
  - intros w'. split.
    + intros [desc H]. eapply build_resolves, H.
    + intros [c H]. eapply build_returns, H.
Qed.

(** The factory function reads its first argument only. Further arguments
    are ignored, and a call without arguments is a call on [undefined]. *)
Theorem build_first_argument_only {World : Type} (options : Declaration World)
  (o : Value) (rest : list Value) :
  build options (o :: rest) = build options [o]
  /\ build options [] = build options [VUndefined].
Proof. split; reflexivity. Qed.

Lemma build_plugin_factory_witness :
  exists desc,
    build (Fixed (loggerOptions Missing)) [] tt = (Normal desc, tt)
    /\ InternalServiceFactory.factory desc [pool; sharedStream] tt
       = (Normal sharedStream, tt)
    /\ InternalServiceFactory.factory desc [pool] tt = (Normal VUndefined, tt).
Proof.
  destruct (build_plugin_factory (Fixed (loggerOptions Missing)) [] tt tt
              (loggerOptions Missing) eq_refl eq_refl)
    as (desc & Hb & Hcall).
  exists desc. split; [exact Hb|]. rewrite !Hcall. split; reflexivity.
Defined.

(** X4. A descriptor that has a [createRootContext] is plugin scoped. *)
Theorem build_createRootContext_plugin {World : Type}
  (options : Declaration World) (args : list Value) (w w' : World)
  (desc : InternalServiceFactory.t World) :
  build options args w = (Normal desc, w') ->
  is_Some (InternalServiceFactory.createRootContext desc) ->
  ServiceRef.scope (InternalServiceFactory.service desc) = plugin.
Proof.
  intros H [g Hg].
  destruct (build_inv _ _ _ _ _ H) as (c & _ & Hservice & _ & Hroot).
  rewrite Hservice.
  destruct (ServiceRef.scope (ServiceFactoryOptions.service c));
    [|reflexivity].
  rewrite Hroot in Hg by reflexivity. discriminate Hg.
Qed.

Lemma build_createRootContext_plugin_witness :
  ServiceRef.scope loggerRef = plugin.
Proof.
  apply (build_createRootContext_plugin
           (World := unit) (Fixed (loggerOptions Undefined)) [] tt tt
           {| InternalServiceFactory.type_tag := "@backstage/BackendFeature";
              InternalServiceFactory.version := "v1";
              InternalServiceFactory.service := loggerRef;
              InternalServiceFactory.initialization := Some always;
              InternalServiceFactory.createRootContext :=
                Some (fun _ => ret VUndefined);
              InternalServiceFactory.deps := {[ "db" := dbRef ]};
              InternalServiceFactory.factory :=
                fun args => ret (arg 1 args) |}).
  - reflexivity.
  - eexists. reflexivity.
Defined.

(** X5. The path an invocation takes is fixed by the [scope] option given to
    [createServiceRef] when the service token was made: with ['root'] the
    descriptor has no [createRootContext] and its factory passes the
    dependency map alone; with ['plugin'], or with no scope at all, its
    factory passes the dependency map and the context. *)
Theorem build_follows_createServiceRef {World : Type}
  (o : ServiceRefOptions.t) (options : Declaration World)
  (args : list Value) (w w' : World) (c : ServiceFactoryOptions.t World) :
  configCallback options [arg 0 args] w = (Normal c, w') ->
  ServiceFactoryOptions.service c = createServiceRef o ->
  exists desc,
    build options args w = (Normal desc, w')
    /\ (ServiceRefOptions.scope o = Some root ->
        InternalServiceFactory.createRootContext desc = None
        /\ forall a w1,
             InternalServiceFactory.factory desc a w1
             = ServiceFactoryOptions.factory c [arg 0 a] w1)
    /\ (ServiceRefOptions.scope o <> Some root ->
        forall a w1,
          InternalServiceFactory.factory desc a w1
          = ServiceFactoryOptions.factory c [arg 0 a; arg 1 a] w1).
Proof.
  intros H Hservice.
  assert (ServiceRef.scope (ServiceFactoryOptions.service c) = root
          <-> ServiceRefOptions.scope o = Some root) as Hscope.
  { rewrite Hservice, createServiceRef_scope.
    destruct (ServiceRefOptions.scope o) as [[]|]; simpl;
      split; congruence. }
  unfold build, createServiceFactory, bind, ret; simpl. rewrite H.
  case_decide; eexists; (split; [reflexivity|]); simpl; split;
    intros Ho; try tauto; auto.
Qed.

Lemma build_follows_createServiceRef_witness :
  exists desc,
    build (Fixed (loggerOptions Missing)) [] tt = (Normal desc, tt)
    /\ InternalServiceFactory.factory desc [pool; sharedStream] tt
       = (Normal sharedStream, tt).
Proof.
  destruct (build_follows_createServiceRef
              (ServiceRefOptions.mk "logger" None None)
              (Fixed (loggerOptions Missing)) [] tt tt
              (loggerOptions Missing) eq_refl eq_refl)
    as (desc & Hb & _ & Hplugin).
  exists desc. split; [exact Hb|].
  rewrite Hplugin by discriminate. reflexivity.
Defined.

(** * Further properties of the overload signatures *)

Lemma assignable_TRoot t : assignable t TRoot = true <-> t = TRoot.
Proof. destruct t; simpl; split; congruence. Qed.

Lemma assignable_TPlugin t : assignable t TPlugin = true <-> t = TPlugin.
Proof. destruct t; simpl; split; congruence. Qed.

Lemma assignable_TRootOrPlugin t : assignable t TRootOrPlugin = true.
Proof. destruct t; reflexivity. Qed.

Lemma admits_spec o ty :
  admits o ty = true
  <-> Overload.shape o = DeclarationType.shape ty
      /\ assignable (DeclarationType.service ty) (Overload.service o) = true
      /\ map_Forall (fun _ t => assignable t (Overload.deps_bound o) = true)
                    (DeclarationType.deps ty).
Proof.
  unfold admits. rewrite !andb_true_iff, !bool_decide_eq_true. tauto.
Qed.

Lemma typechecks_iff (ty : DeclarationType.t) :
  typechecks ty = true
  <-> DeclarationType.service ty = TPlugin
      \/ (DeclarationType.service ty = TRoot
          /\ map_Forall (fun _ t => t = TRoot) (DeclarationType.deps ty)).
Proof.
  unfold typechecks, overloads. simpl.
  rewrite !orb_true_iff, !admits_spec. simpl.
  rewrite assignable_TRoot, assignable_TPlugin.
  assert (map_Forall (fun (_ : string) t => assignable t TRoot = true)
                     (DeclarationType.deps ty)
          <-> map_Forall (fun (_ : string) t => t = TRoot)
                         (DeclarationType.deps ty)) as ->.
  { split; intros H; (eapply map_Forall_impl; [exact H|]);
      intros ? t; simpl; apply assignable_TRoot. }
  assert (map_Forall (fun (_ : string) t => assignable t TRootOrPlugin = true)
                     (DeclarationType.deps ty)) as Hany.
  { intros name t _. apply assignable_TRootOrPlugin. }
  destruct (DeclarationType.shape ty); split.
  - intros [H|[H|[H|[H|H]]]]; try discriminate H;
      destruct H as (Hshape & ? & ?); try discriminate Hshape; auto.
  - intros [?|[? ?]]; [right; right; left | left]; auto.
  - intros [H|[H|[H|[H|H]]]]; try discriminate H;
      destruct H as (Hshape & ? & ?); try discriminate Hshape; auto.
  - intros [?|[? ?]]; [right; right; right; left | right; left]; auto.
Qed.

Lemma typechecks_shape_irrelevant sh1 sh2 service deps :
  typechecks (DeclarationType.mk sh1 service deps)
  = typechecks (DeclarationType.mk sh2 service deps).
Proof.
  apply eq_true_iff_eq. rewrite !typechecks_iff. reflexivity.
Qed.

(** X8. The four overloads together admit a declaration exactly when its
    service is typed ['plugin'], or its service is typed ['root'] and every
    dependency is typed ['root']. The shape of the declaration plays no
    part, and a service typed ['root' | 'plugin'] is never admitted. *)
Theorem typechecks_spec (ty : DeclarationType.t) :
  (typechecks ty = true
   <-> DeclarationType.service ty = TPlugin
       \/ (DeclarationType.service ty = TRoot
           /\ map_Forall (fun _ t => t = TRoot) (DeclarationType.deps ty)))
  /\ (DeclarationType.service ty = TRootOrPlugin -> typechecks ty = false)
  /\ (forall sh,
        typechecks (DeclarationType.mk sh (DeclarationType.service ty)
                                       (DeclarationType.deps ty))
        = typechecks ty).
Proof.
  split; [apply typechecks_iff|]. split.
  - intros Hservice. apply not_true_is_false. rewrite typechecks_iff.
    rewrite Hservice. intros [?|[? _]]; discriminate.
  - intros sh. destruct ty as [sh0 service deps]. simpl.
    apply typechecks_shape_irrelevant.
Qed.

Lemma typechecks_spec_witness :
  typechecks (DeclarationType.mk OptionsFunction TRootOrPlugin ∅) = false.
Proof.
  destruct (typechecks_spec (DeclarationType.mk OptionsFunction TRootOrPlugin ∅))
    as (_ & Hunion & _).
  apply Hunion. reflexivity.
Defined.



(** * Properties of the dependency projection *)

Lemma ServiceRefsToInstances_lookup (T : gmap string ServiceRefType.t)
  (TScope : ScopeType) (key : string) :
  ServiceRefsToInstances T TScope !! key
  = match T !! key with
    | Some r => if assignable (ServiceRefType.scope r) TScope
                then Some (ServiceRefType.T r)
                else None
    | None => None
    end.
Proof.
  unfold ServiceRefsToInstances. rewrite lookup_omap.
  destruct (T !! key); reflexivity.
Qed.

(** X10. The ['root'] projection, which types the dependencies of a root
    factory and of [createRootContext], has a key exactly when the
    reference under that key is typed ['root'], and maps it to the
    reference's contract type. References typed ['plugin'] or
    ['root' | 'plugin'] are left out. *)
Theorem ServiceRefsToInstances_root (T : gmap string ServiceRefType.t)
  (key contract : string) :
  ServiceRefsToInstances T TRoot !! key = Some contract
  <-> T !! key = Some (ServiceRefType.mk contract TRoot).
Proof.
  rewrite ServiceRefsToInstances_lookup.
  destruct (T !! key) as [[contract' []]|]; simpl; split;
    intros H; congruence.
Qed.

(** X11. The default projection, which types the dependencies of a plugin
    factory, keeps every key with its contract type; the projection at any
    other scope is a part of it. So [createRootContext] never sees a
    dependency that [factory] does not. *)
Theorem ServiceRefsToInstances_default (T : gmap string ServiceRefType.t) :
  ServiceRefsToInstances T TRootOrPlugin = ServiceRefType.T <$> T
  /\ forall TScope,
       ServiceRefsToInstances T TScope ⊆ ServiceRefsToInstances T TRootOrPlugin.
Proof.
  split.
  - apply map_eq. intros key.
    rewrite ServiceRefsToInstances_lookup, lookup_fmap.
    destruct (T !! key) as [r|]; simpl; [|reflexivity].
    rewrite assignable_TRootOrPlugin. reflexivity.
  - intros TScope. apply map_subseteq_spec. intros key contract.
    rewrite !ServiceRefsToInstances_lookup.
    destruct (T !! key) as [r|]; [|discriminate].
    rewrite assignable_TRootOrPlugin.
    destruct (assignable (ServiceRefType.scope r) TScope);
      [trivial | discriminate].
Qed.

(** X12. For a declaration that the overloads admit as root scoped, the
    ['root'] projection loses nothing: the factory is typed with every
    declared dependency. *)
Theorem ServiceRefsToInstances_root_admitted (sh : Shape)
  (T : gmap string ServiceRefType.t) :
  typechecks (DeclarationType.mk sh TRoot (ServiceRefType.scope <$> T)) = true ->
  ServiceRefsToInstances T TRoot = ServiceRefType.T <$> T.
Proof.
  intros Hchecks.
  apply typechecks_iff in Hchecks as [Hplugin|[_ Hall]];
    [discriminate Hplugin|]. simpl in Hall.
  apply map_eq. intros key.
  rewrite ServiceRefsToInstances_lookup, lookup_fmap.
  destruct (T !! key) as [r|] eqn:Hkey; simpl; [|reflexivity].
  assert ((ServiceRefType.scope <$> T) !! key = Some (ServiceRefType.scope r))
    as Hscope by (rewrite lookup_fmap, Hkey; reflexivity).
  rewrite (map_Forall_lookup_1 _ _ _ _ Hall Hscope). reflexivity.
Qed.

Lemma ServiceRefsToInstances_root_admitted_witness :
  ServiceRefsToInstances {[ "db" := ServiceRefType.mk "Pool" TRoot ]} TRoot
  = ServiceRefType.T <$> {[ "db" := ServiceRefType.mk "Pool" TRoot ]}.
Proof.
  apply (ServiceRefsToInstances_root_admitted OptionsObject).
  vm_compute. reflexivity.
Defined.

(** On the sample type: [db] alone reaches [createRootContext]. *)
Example ServiceRefsToInstances_sample :
  ServiceRefsToInstances sampleDepsType TRoot = {[ "db" := "Pool" ]}
  /\ ServiceRefsToInstances sampleDepsType TRootOrPlugin
     = {[ "db" := "Pool"; "logger" := "Logger"; "any" := "Clock" ]}.
Proof. split; vm_compute; reflexivity. Qed.
